(** * Dependent-field synchronizer of the trip-creation form

    A shallow embedding of [app/core/static/core/js/create_trip_form.js]
    (the variant with load-time initialisation, lines 46-107 of the file):
    the document-ready body, the four [change] handlers, [updateStations] and
    the success callback of [$.get].

    The script is event driven.  The page and the requests issued so far are
    an explicit state ([browser]); the browser's event loop delivers [change]
    events and request completions one at a time ([step], [run]).

    The children of a station selector are nodes: [append] parses the markup
    it is handed ([parseHTML]) and inserts every node the markup yields.

    The earlier variant of the script (lines 1-46) is embedded in [V1] and
    compared with the later one.

    Strings are [string]s of code units below 256.  JSON numbers are modelled
    for integral ids, printed in decimal. *)

From Stdlib Require Import String Ascii List ZArith Bool Arith Lia DecimalString.
Import ListNotations.
Local Open Scope string_scope.

(** ** The fragment of JavaScript the script relies on *)

Module JS.

(** The values the script handles: [.val()] yields a string, or [null] for
    a select without a selected option; response fields are strings or
    numbers. *)
Inductive value : Type :=
| Null
| Num (n : Z)
| Str (s : string).

Definition ToString (v : value) : string :=
  match v with
  | Null => "null"
  | Num n => NilZero.string_of_int (Z.to_int n)
  | Str s => s
  end.

Definition ToNumber (v : value) : option Z :=
  match v with
  | Null => Some 0%Z
  | Num n => Some n
  | Str _ => None
  end.

(** [if (v)]: [null], [0] and the empty string are falsy. *)
Definition ToBoolean (v : value) : bool :=
  match v with
  | Null => false
  | Num n => negb (n =? 0)%Z
  | Str s => negb (s =? "")
  end.

(** [!v] *)
Definition not (v : value) : bool := negb (ToBoolean v).

(** Binary [a + b]: concatenation as soon as one operand is a string,
    numeric addition otherwise. *)
Definition add (a b : value) : value :=
  match a, b with
  | Str s, _ => Str (s ++ ToString b)
  | _, Str t => Str (ToString a ++ t)
  | _, _ =>
      match ToNumber a, ToNumber b with
      | Some x, Some y => Num (x + y)
      | _, _ => Null
      end
  end.

(** [s === t] on strings *)
Definition strict_eq_string (s t : string) : bool := (s =? t).

End JS.

(** ** The jQuery calls the script makes *)

Module jQuery.
Import JS.

(** The white space of jQuery's [rtrim] regular expression (the class
    [\s] with U+FEFF and U+00A0), among code units below 256: the
    controls 9 to 13, the space and the no-break space. *)
Definition is_space (c : ascii) : bool :=
  let n := nat_of_ascii c in
  (((9 <=? n) && (n <=? 13)) || (n =? 32) || (n =? 160))%nat.

Fixpoint ltrim (s : string) : string :=
  match s with
  | EmptyString => EmptyString
  | String c r => if is_space c then ltrim r else s
  end.

Fixpoint rtrim (s : string) : string :=
  match s with
  | EmptyString => EmptyString
  | String c r =>
      match rtrim r with
      | EmptyString => if is_space c then EmptyString else String c EmptyString
      | r' => String c r'
      end
  end.

(** [$.trim(text)]: [text == null ? "" : (text + "").replace(rtrim, "")] *)
Definition trim (text : value) : string :=
  match text with
  | Null => ""
  | _ => rtrim (ltrim (ToString text))
  end.

Fixpoint all_space (s : string) : bool :=
  match s with
  | EmptyString => true
  | String c r => is_space c && all_space r
  end.

End jQuery.

(** ** Markup and the nodes it yields *)

Definition quote : string := String "034"%char EmptyString.

(** An [<option>] element as the specification describes it: its [value]
    attribute and, as its label, the text it contains. *)
Record option_element : Type := {
  value : string;
  label : string
}.

Definition outerHTML (o : option_element) : string :=
  "<option value=" ++ quote ++ value o ++ quote ++ ">" ++ label o ++ "</option>".

(** A child of a station [<select>]: an [<option>] element with a [value]
    attribute and text, or the nodes, however many and whatever they are,
    of a piece of markup that [parseHTML] below does not read. *)
Inductive node : Type :=
| Element (o : option_element)
| Markup (html : string).

(** The characters that stand for themselves in a double-quoted attribute
    value: not the quote, not the ampersand of a character reference, not
    NUL or CR, which the parser drops or rewrites; the angle brackets are
    left out as well, since older [jQuery.htmlPrefilter]s rewrite tags that
    end in a slash and a closing bracket. *)
Definition attr_char (c : ascii) : bool :=
  negb (Ascii.eqb c "034" || Ascii.eqb c "&" || Ascii.eqb c "<"
        || Ascii.eqb c ">" || Ascii.eqb c "000" || Ascii.eqb c "013")%char.

(** The characters that stand for themselves in the text of an element. *)
Definition text_char (c : ascii) : bool :=
  negb (Ascii.eqb c "<" || Ascii.eqb c "&"
        || Ascii.eqb c "000" || Ascii.eqb c "013")%char.

Fixpoint all_chars (f : ascii -> bool) (s : string) : bool :=
  match s with
  | EmptyString => true
  | String c r => f c && all_chars f r
  end.

Fixpoint strip_prefix (p s : string) : option string :=
  match p, s with
  | EmptyString, _ => Some s
  | String a p', String b s' => if Ascii.eqb a b then strip_prefix p' s' else None
  | String _ _, EmptyString => None
  end.

(** The longest prefix of characters that satisfy [f], and the rest. *)
Fixpoint span (f : ascii -> bool) (s : string) : string * string :=
  match s with
  | EmptyString => (EmptyString, EmptyString)
  | String c r =>
      if f c then let (a, b) := span f r in (String c a, b)
      else (EmptyString, s)
  end.

(** A sequence of [<option value="...">...</option>] elements, read the way
    an HTML parser reads it: the attribute value runs to the next quote, the
    text to the next tag.  [None] on any other markup.  Each element read
    takes characters off [s], so [String.length s] is fuel enough. *)
Fixpoint parse_options (fuel : nat) (s : string) : option (list option_element) :=
  match s, fuel with
  | EmptyString, _ => Some []
  | _, O => None
  | _, S fuel' =>
      match strip_prefix ("<option value=" ++ quote) s with
      | None => None
      | Some s1 =>
          let (v, s2) := span attr_char s1 in
          match strip_prefix (quote ++ ">") s2 with
          | None => None
          | Some s3 =>
              let (t, s4) := span text_char s3 in
              match strip_prefix "</option>" s4 with
              | None => None
              | Some s5 =>
                  match parse_options fuel' s5 with
                  | Some os => Some ({| value := v; label := t |} :: os)
                  | None => None
                  end
              end
          end
      end
  end.

(** The nodes jQuery builds from an HTML string before it inserts them (the
    string becomes the [innerHTML] of a scratch element, whose children are
    taken): every [<option>] element the markup holds, in order; markup
    outside the fragment of [parse_options] is kept as it is. *)
Definition parseHTML (html : string) : list node :=
  match parse_options (String.length html) html with
  | Some os => map Element os
  | None => [Markup html]
  end.

(** The value and the text of the element stand for themselves in its
    markup. *)
Definition plain (o : option_element) : bool :=
  all_chars attr_char (value o) && all_chars text_char (label o).

(** ** The page *)

(** The two city selectors, [#start_point] and [#end_point]. *)
Inductive city : Type := StartPoint | EndPoint.

(** The two station selectors, [#departure_station] and [#arrival_station]. *)
Inductive station : Type := Departure | Arrival.

Definition station_eqb (a b : station) : bool :=
  match a, b with
  | Departure, Departure | Arrival, Arrival => true
  | _, _ => false
  end.

(** A station [<select>]: its children in document order and its [disabled]
    property. *)
Record select : Type := {
  options : list node;
  disabled : bool
}.

Record page : Type := {
  start_point : JS.value;
  end_point : JS.value;
  departure_station : select;
  arrival_station : select
}.

(** [$("#start_point").val()], [$("#end_point").val()] *)
Definition val (c : city) (d : page) : JS.value :=
  match c with
  | StartPoint => start_point d
  | EndPoint => end_point d
  end.

Definition set_val (c : city) (v : JS.value) (d : page) : page :=
  match c with
  | StartPoint =>
      {| start_point := v; end_point := end_point d;
         departure_station := departure_station d;
         arrival_station := arrival_station d |}
  | EndPoint =>
      {| start_point := start_point d; end_point := v;
         departure_station := departure_station d;
         arrival_station := arrival_station d |}
  end.

Definition get_station (s : station) (d : page) : select :=
  match s with
  | Departure => departure_station d
  | Arrival => arrival_station d
  end.

Definition set_station (s : station) (x : select) (d : page) : page :=
  match s with
  | Departure =>
      {| start_point := start_point d; end_point := end_point d;
         departure_station := x;
         arrival_station := arrival_station d |}
  | Arrival =>
      {| start_point := start_point d; end_point := end_point d;
         departure_station := departure_station d;
         arrival_station := x |}
  end.

(** [stationSelect.empty()] *)
Definition empty (stationSelect : station) (d : page) : page :=
  set_station stationSelect
    {| options := []; disabled := disabled (get_station stationSelect d) |} d.

(** [stationSelect.append(html)]: the string is parsed and every node it
    yields becomes a child, after the children the selector has. *)
Definition append (stationSelect : station) (html : JS.value) (d : page) : page :=
  set_station stationSelect
    {| options := options (get_station stationSelect d) ++
                  parseHTML (JS.ToString html);
       disabled := disabled (get_station stationSelect d) |} d.

(** [targetField.prop("disabled", b)] *)
Definition prop_disabled (targetField : station) (b : bool) (d : page) : page :=
  set_station targetField
    {| options := options (get_station targetField d); disabled := b |} d.

(** ** Requests *)

(** One entry of [data.results]. *)
Record item : Type := {
  id : JS.value;
  text : JS.value
}.

Record response : Type := {
  results : list item
}.

(** A [$.get(url, callback)] that was issued.  The only callback of the script
    is the one of [updateStations]; it closes over [stationSelect]. *)
Record request : Type := {
  url : string;
  stationSelect : station
}.

Inductive status : Type := InFlight | Settled.

(** The page together with every request issued so far, oldest first.  A
    request is named by its position in [xhr]. *)
Record browser : Type := {
  dom : page;
  xhr : list (request * status)
}.

Definition with_dom (f : page -> page) (w : browser) : browser :=
  {| dom := f (dom w); xhr := xhr w |}.

(** [$.get(url, function (data) {...})] *)
Definition get (u : JS.value) (target : station) (w : browser) : browser :=
  {| dom := dom w;
     xhr := xhr w ++ [({| url := JS.ToString u; stationSelect := target |}, InFlight)] |}.

(** The request [n] when it has not completed yet. *)
Definition pending (n : nat) (w : browser) : option request :=
  match nth_error (xhr w) n with
  | Some (r, InFlight) => Some r
  | _ => None
  end.

Fixpoint settle (n : nat) (l : list (request * status)) : list (request * status) :=
  match l, n with
  | [], _ => []
  | (r, _) :: l', O => (r, Settled) :: l'
  | x :: l', S n' => x :: settle n' l'
  end.

(** ** The script *)

(** ['<option value="' + item.id + '">' + item.text + '</option>'] (line 54);
    [+] associates to the left. *)
Definition option_html (it : item) : JS.value :=
  JS.add (JS.add (JS.add (JS.add (JS.Str ("<option value=" ++ quote)) (id it))
                         (JS.Str (quote ++ ">")))
                 (text it))
         (JS.Str "</option>").

(** [$.each(l, function (index, item) { stationSelect.append(...); })]
    (lines 53-55) *)
Definition append_all (target : station) (l : list item) (d : page) : page :=
  fold_left (fun d' it => append target (option_html it) d') l d.

(** The success callback of [$.get] (lines 50-56). *)
Definition on_success (target : station) (data : response) (d : page) : page :=
  append_all target (results data) (empty target d).

(** [updateStations(cityId, stationSelect)] (lines 47-57) *)
Definition updateStations (cityId : JS.value) (target : station) (w : browser) : browser :=
  let u := JS.add (JS.Str "/ajax/get_stations/?city_id=") cityId in
  get u target w.

(** [$("#start_point").change(function () {...})] (lines 59-63) *)
Definition start_point_change (w : browser) : browser :=
  let cityId := val StartPoint (dom w) in
  let target := Departure in
  updateStations cityId target w.

(** [$("#end_point").change(function () {...})] (lines 65-69) *)
Definition end_point_change (w : browser) : browser :=
  let cityId := val EndPoint (dom w) in
  let target := Arrival in
  updateStations cityId target w.

Definition pointSelect_1 : city := StartPoint.
Definition targetField_1 : station := Departure.
Definition pointSelect_2 : city := EndPoint.
Definition targetField_2 : station := Arrival.

(** [pointSelect_1.change(function() {...})] (lines 99-102) *)
Definition pointSelect_1_change (w : browser) : browser :=
  with_dom (prop_disabled targetField_1 (JS.not (val pointSelect_1 (dom w)))) w.

(** [pointSelect_2.change(function() {...})] (lines 104-106) *)
Definition pointSelect_2_change (w : browser) : browser :=
  with_dom (prop_disabled targetField_2 (JS.not (val pointSelect_2 (dom w)))) w.

(** The body of [$(document).ready(...)] that runs at once (lines 72-96); the
    handlers it registers are the four definitions above. *)
Definition ready (w : browser) : browser :=
  let startCityId := val StartPoint (dom w) in
  let endCityId := val EndPoint (dom w) in
  let w1 := if JS.ToBoolean startCityId
            then updateStations startCityId Departure w else w in
  let w2 := if JS.ToBoolean endCityId
            then updateStations endCityId Arrival w1 else w1 in
  let w3 := if JS.strict_eq_string (jQuery.trim (val pointSelect_1 (dom w2))) ""
            then with_dom (prop_disabled targetField_1 true) w2 else w2 in
  let w4 := if JS.strict_eq_string (jQuery.trim (val pointSelect_2 (dom w3))) ""
            then with_dom (prop_disabled targetField_2 true) w3 else w3 in
  w4.

(** ** The event loop *)

(** The station selector bound to a city selector. *)
Definition bound (c : city) : station :=
  match c with
  | StartPoint => Departure
  | EndPoint => Arrival
  end.

Definition other (c : city) : city :=
  match c with
  | StartPoint => EndPoint
  | EndPoint => StartPoint
  end.

(** A [change] event on a city selector: the selector holds the new value and
    jQuery calls the handlers bound to it in the order they were bound. *)
Definition change (c : city) (v : JS.value) (w : browser) : browser :=
  let w0 := with_dom (set_val c v) w in
  match c with
  | StartPoint => pointSelect_1_change (start_point_change w0)
  | EndPoint => pointSelect_2_change (end_point_change w0)
  end.

Inductive event : Type :=
| Change (c : city) (v : JS.value)
| Success (n : nat) (data : response)
| Failure (n : nat).

(** One turn of the event loop.  The completion of a request that is not in
    flight cannot happen and changes nothing. *)
Definition step (e : event) (w : browser) : browser :=
  match e with
  | Change c v => change c v w
  | Success n data =>
      match pending n w with
      | Some r =>
          {| dom := on_success (stationSelect r) data (dom w);
             xhr := settle n (xhr w) |}
      | None => w
      end
  | Failure n =>
      match pending n w with
      | Some _ => {| dom := dom w; xhr := settle n (xhr w) |}
      | None => w
      end
  end.

Definition run (tr : list event) (w : browser) : browser :=
  fold_left (fun w' e => step e w') tr w.

(** ** Observations *)

Definition enabled (s : station) (w : browser) : bool :=
  negb (disabled (get_station s (dom w))).

Definition station_options (s : station) (w : browser) : list node :=
  options (get_station s (dom w)).

(** The requests in [xhr w], in order. *)
Definition issued (w : browser) : list request := map fst (xhr w).

(** The option the specification expects for a response entry. *)
Definition option_of_item (it : item) : option_element :=
  {| value := JS.ToString (id it); label := JS.ToString (text it) |}.

(** The request [updateStations] issues for a city value. *)
Definition stations_request (cityId : JS.value) (target : station) : request :=
  {| url := "/ajax/get_stations/?city_id=" ++ JS.ToString cityId;
     stationSelect := target |}.

(** The requests the document-ready body issues, in order (lines 75-81). *)
Definition load_requests (d : page) : list (request * status) :=
  ((if JS.ToBoolean (start_point d)
    then [(stations_request (start_point d) Departure, InFlight)] else []) ++
   (if JS.ToBoolean (end_point d)
    then [(stations_request (end_point d) Arrival, InFlight)] else []))%list.


(** The station selector mirrors its city selector the way the [change]
    handler of lines 99-106 leaves it. *)
Definition synced (c : city) (w : browser) : Prop :=
  disabled (get_station (bound c) (dom w)) = JS.not (val c (dom w)).

(** The station selector an event writes to, if any. *)
Definition writes_to (e : event) (w : browser) : option station :=
  match e with
  | Change c _ => Some (bound c)
  | Success n _ =>
      match pending n w with
      | Some r => Some (stationSelect r)
      | None => None
      end
  | Failure _ => None
  end.

(** No event of the sequence writes to the station selector [s]. *)
Fixpoint quiet (s : station) (tr : list event) (w : browser) : bool :=
  match tr with
  | [] => true
  | e :: tr' =>
      match writes_to e w with
      | Some t => negb (station_eqb t s)
      | None => true
      end && quiet s tr' (step e w)
  end.

(** The options a station selector shows once a response has been written to
    it: for each entry, in the order of the response, the nodes of its
    markup. *)
Definition expected_options (data : response) : list node :=
  flat_map (fun it => parseHTML (outerHTML (option_of_item it))) (results data).

(** The id and the text of the entry hold no character that markup gives a
    meaning to. *)
Definition plain_item (it : item) : bool := plain (option_of_item it).

(** A city selector that holds no city: [null] or the empty string. *)
Definition empty_value (v : JS.value) : bool :=
  match v with
  | JS.Null => true
  | JS.Str s => s =? ""
  | JS.Num _ => false
  end.

(** ** Scenarios of the specification *)

Definition old_option : node :=
  Element {| value := "9"; label := "Old" |}.

(** A freshly served page: both station selectors enabled, one option each,
    nothing requested yet. *)
Definition served (start finish : JS.value) : browser :=
  {| dom := {| start_point := start; end_point := finish;
               departure_station := {| options := [old_option]; disabled := false |};
               arrival_station := {| options := [old_option]; disabled := false |} |};
     xhr := [] |}.

(** [start_point] preselected to "5", [end_point] empty. *)
Definition page_5 : browser := served (JS.Str "5") (JS.Str "").

(** [start_point] preselected to a single space, [end_point] empty. *)
Definition page_blank : browser := served (JS.Str " ") (JS.Str "").

(** [{results: [{id: 1, text: "A"}, {id: 2, text: "B"}]}] *)
Definition stations_AB : response :=
  {| results := [ {| id := JS.Num 1; text := JS.Str "A" |};
                  {| id := JS.Num 2; text := JS.Str "B" |} ] |}.

(** [{results: [{id: 7, text: "C"}]}] *)
Definition stations_C : response :=
  {| results := [ {| id := JS.Num 7; text := JS.Str "C" |} ] |}.

(** One entry whose text closes its option and opens another:
    [{results: [{id: 1, text: 'A</option><option value="2">B'}]}] *)
Definition stations_injected : response :=
  {| results :=
       [ {| id := JS.Num 1;
            text := JS.Str ("A</option><option value=" ++ quote ++ "2" ++ quote
                            ++ ">B") |} ] |}.

(** "5" then "7" on [start_point]; the answer for "7" arrives first, the
    answer for "5" last. *)
Definition rapid_changes : list event :=
  [Change StartPoint (JS.Str "5"); Change StartPoint (JS.Str "7");
   Success 1 stations_C; Success 0 stations_AB].

(** ** Sequences of events *)

Definition city_eqb (a b : city) : bool :=
  match a, b with
  | StartPoint, StartPoint | EndPoint, EndPoint => true
  | _, _ => false
  end.

(** The requests the [change] events of a sequence issue, in order. *)
Fixpoint requests_of (tr : list event) : list request :=
  match tr with
  | [] => []
  | Change c v :: tr' => stations_request v (bound c) :: requests_of tr'
  | _ :: tr' => requests_of tr'
  end.

(** The sequence holds no [change] event on the city selector [c]. *)
Fixpoint no_change (c : city) (tr : list event) : bool :=
  match tr with
  | [] => true
  | Change c' _ :: tr' => negb (city_eqb c' c) && no_change c tr'
  | _ :: tr' => no_change c tr'
  end.

(** ** The earlier variant of the script (lines 1-46)

    The handlers issue the request in place instead of calling
    [updateStations], each callback looks its station selector up when it
    runs, and the document-ready body disables both station selectors
    without looking at the city selectors. *)

Module V1.

(** The callback of lines 6-13: [stationSelect] is [$("#departure_station")]. *)
Definition departure_success (data : response) (d : page) : page :=
  let target := Departure in
  fold_left (fun d' it => append target (option_html it) d')
            (results data) (empty target d).

(** The callback of lines 19-26: [stationSelect] is [$("#arrival_station")]. *)
Definition arrival_success (data : response) (d : page) : page :=
  let target := Arrival in
  fold_left (fun d' it => append target (option_html it) d')
            (results data) (empty target d).

(** [$("#start_point").change(function () {...})] (lines 2-14); the request
    records which of the two callbacks it carries. *)
Definition start_point_change (w : browser) : browser :=
  let cityId := val StartPoint (dom w) in
  let u := JS.add (JS.Str "/ajax/get_stations/?city_id=") cityId in
  get u Departure w.

(** [$("#end_point").change(function () {...})] (lines 15-27) *)
Definition end_point_change (w : browser) : browser :=
  let cityId := val EndPoint (dom w) in
  let u := JS.add (JS.Str "/ajax/get_stations/?city_id=") cityId in
  get u Arrival w.

(** [pointSelect_1.change(function() {...})] (lines 38-41) *)
Definition pointSelect_1_change (w : browser) : browser :=
  with_dom (prop_disabled targetField_1 (JS.not (val pointSelect_1 (dom w)))) w.

(** [pointSelect_2.change(function() {...})] (lines 43-45) *)
Definition pointSelect_2_change (w : browser) : browser :=
  with_dom (prop_disabled targetField_2 (JS.not (val pointSelect_2 (dom w)))) w.

(** The part of the document-ready body that runs at once (lines 34-35). *)
Definition ready (w : browser) : browser :=
  let w1 := with_dom (prop_disabled targetField_1 true) w in
  let w2 := with_dom (prop_disabled targetField_2 true) w1 in
  w2.

Definition change (c : city) (v : JS.value) (w : browser) : browser :=
  let w0 := with_dom (set_val c v) w in
  match c with
  | StartPoint => pointSelect_1_change (start_point_change w0)
  | EndPoint => pointSelect_2_change (end_point_change w0)
  end.

Definition step (e : event) (w : browser) : browser :=
  match e with
  | Change c v => change c v w
  | Success n data =>
      match pending n w with
      | Some r =>
          {| dom := match stationSelect r with
                    | Departure => departure_success data (dom w)
                    | Arrival => arrival_success data (dom w)
                    end;
             xhr := settle n (xhr w) |}
      | None => w
      end
  | Failure n =>
      match pending n w with
      | Some _ => {| dom := dom w; xhr := settle n (xhr w) |}
      | None => w
      end
  end.

Definition run (tr : list event) (w : browser) : browser :=
  fold_left (fun w' e => step e w') tr w.

End V1.

(** * Properties *)

(** ** Strings and [$.trim] *)

Lemma append_assoc (a b c : string) : (a ++ b) ++ c = a ++ (b ++ c).
Proof. induction a as [|x a IH]; simpl; [reflexivity | now rewrite IH]. Qed.

Section Trim.
Import jQuery.

Lemma all_space_ltrim (s : string) : all_space (ltrim s) = all_space s.
Proof.
  induction s as [|c r IH]; simpl; [reflexivity|].
  destruct (is_space c) eqn:Hc; simpl; [exact IH | now rewrite Hc].
Qed.

Lemma rtrim_empty_iff (s : string) : rtrim s = "" <-> all_space s = true.
Proof.
  induction s as [|c r IH]; simpl; [tauto|].
  destruct (rtrim r) eqn:Hr.
  - destruct (is_space c); simpl.
    + rewrite <- IH. tauto.
    + split; discriminate.
  - split; [discriminate|].
    intros H. apply andb_true_iff in H. destruct H as [_ H].
    apply IH in H. discriminate.
Qed.

(** [$.trim] yields the empty string exactly on [null] and on strings of
    white space. *)
Lemma trim_empty_iff (s : string) :
  trim (JS.Str s) = "" <-> all_space s = true.
Proof.
  unfold trim; simpl. rewrite rtrim_empty_iff. now rewrite all_space_ltrim.
Qed.

End Trim.

(** ** Markup *)

Lemma strip_prefix_app (p s : string) : strip_prefix p (p ++ s) = Some s.
Proof.
  induction p as [|a p IH]; simpl; [now destruct s|].
  now rewrite Ascii.eqb_refl.
Qed.

Lemma span_stop (f : ascii -> bool) (a : string) (c : ascii) (r : string) :
  all_chars f a = true -> f c = false ->
  span f (a ++ String c r) = (a, String c r).
Proof.
  intros Ha Hc. induction a as [|x a IH]; simpl in *.
  - now rewrite Hc.
  - apply andb_true_iff in Ha. destruct Ha as [Hx Ha].
    rewrite Hx, (IH Ha). reflexivity.
Qed.

Lemma strip_prefix_length (p s s' : string) :
  strip_prefix p s = Some s' ->
  String.length s = String.length p + String.length s'.
Proof.
  revert s. induction p as [|a p IH]; intros s H; simpl in *.
  - destruct s; inversion H; reflexivity.
  - destruct s as [|b s]; [discriminate|].
    destruct (Ascii.eqb a b); [|discriminate].
    simpl. now rewrite (IH s H).
Qed.

Lemma span_length (f : ascii -> bool) (s : string) :
  String.length s =
  String.length (fst (span f s)) + String.length (snd (span f s)).
Proof.
  induction s as [|c r IH]; simpl; [reflexivity|].
  destruct (f c); [|reflexivity].
  destruct (span f r) as [a b]. simpl in *. now rewrite IH.
Qed.

(** The fuel of [parseHTML] is enough: more of it changes nothing. *)
Lemma parse_options_fuel (f1 f2 : nat) (s : string) :
  String.length s <= f1 -> String.length s <= f2 ->
  parse_options f1 s = parse_options f2 s.
Proof.
  revert f2 s. induction f1 as [|f1 IH]; intros f2 s H1 H2.
  - destruct s; [now destruct f2 | simpl in H1; lia].
  - destruct s as [|c s]; [now destruct f2|].
    destruct f2 as [|f2]; [simpl in H2; lia|].
    cbn [parse_options].
    destruct (strip_prefix ("<option value=" ++ quote) (String c s))
      as [s1|] eqn:E1; [|reflexivity].
    apply strip_prefix_length in E1.
    assert (L2 := span_length attr_char s1).
    destruct (span attr_char s1) as [v s2]. cbn [fst snd] in L2.
    destruct (strip_prefix (quote ++ ">") s2) as [s3|] eqn:E3; [|reflexivity].
    apply strip_prefix_length in E3.
    assert (L4 := span_length text_char s3).
    destruct (span text_char s3) as [t s4]. cbn [fst snd] in L4.
    destruct (strip_prefix "</option>" s4) as [s5|] eqn:E5; [|reflexivity].
    apply strip_prefix_length in E5.
    assert (L : String.length s5 < String.length (String c s)).
    { rewrite E1, L2, E3, L4, E5. simpl. lia. }
    rewrite (IH f2 s5); [reflexivity | lia | lia].
Qed.

(** Reading the markup of a plain element gives the element back. *)
Lemma parse_options_plain (o : option_element) (fuel : nat) :
  plain o = true -> parse_options (S fuel) (outerHTML o) = Some [o].
Proof.
  unfold plain. intros H. apply andb_true_iff in H. destruct H as [Hv Ht].
  destruct o as [v t]. cbn [value label] in *.
  unfold outerHTML. cbn [value label].
  change ("<option value=" ++ quote ++ v ++ quote ++ ">" ++ t ++ "</option>")
    with (String "<"
            ("option value=" ++ quote ++ v ++ quote ++ ">" ++ t ++ "</option>")).
  cbn [parse_options].
  change (String "<"
            ("option value=" ++ quote ++ v ++ quote ++ ">" ++ t ++ "</option>"))
    with (("<option value=" ++ quote) ++
          (v ++ String "034" (">" ++ t ++ "</option>"))).
  rewrite strip_prefix_app.
  rewrite (span_stop attr_char v "034" _ Hv eq_refl).
  change (String "034"%char (">" ++ t ++ "</option>"))
    with ((quote ++ ">") ++ (t ++ String "<" "/option>")).
  rewrite strip_prefix_app.
  rewrite (span_stop text_char t "<" _ Ht eq_refl).
  destruct fuel; reflexivity.
Qed.

Lemma parseHTML_plain (o : option_element) :
  plain o = true -> parseHTML (outerHTML o) = [Element o].
Proof.
  intros H. unfold parseHTML.
  assert (L : exists n, String.length (outerHTML o) = S n).
  { unfold outerHTML. simpl. eauto. }
  destruct L as [n L]. rewrite L, (parse_options_plain o n H). reflexivity.
Qed.

Lemma expected_options_plain (data : response) :
  forallb plain_item (results data) = true ->
  expected_options data = map (fun it => Element (option_of_item it)) (results data).
Proof.
  unfold expected_options. induction (results data) as [|it l IH];
    cbn [forallb flat_map map]; intros H; [reflexivity|].
  apply andb_true_iff in H. destruct H as [Hit Hl].
  rewrite (parseHTML_plain _ Hit), (IH Hl). reflexivity.
Qed.

(** ** The page *)

Lemma get_set_station_same (s : station) (x : select) (d : page) :
  get_station s (set_station s x d) = x.
Proof. now destruct s. Qed.

Lemma get_set_station_other (s t : station) (x : select) (d : page) :
  s <> t -> get_station s (set_station t x d) = get_station s d.
Proof. destruct s, t; simpl; congruence. Qed.

Lemma val_set_station (c : city) (t : station) (x : select) (d : page) :
  val c (set_station t x d) = val c d.
Proof. now destruct c, t. Qed.

Lemma val_set_val_same (c : city) (v : JS.value) (d : page) :
  val c (set_val c v d) = v.
Proof. now destruct c. Qed.

Lemma val_set_val_other (c c' : city) (v : JS.value) (d : page) :
  c <> c' -> val c (set_val c' v d) = val c d.
Proof. destruct c, c'; simpl; congruence. Qed.

Lemma get_station_set_val (s : station) (c : city) (v : JS.value) (d : page) :
  get_station s (set_val c v d) = get_station s d.
Proof. now destruct s, c. Qed.

Lemma bound_other (c : city) : bound (other c) <> bound c.
Proof. destruct c; discriminate. Qed.

(** ** The success callback *)

Lemma append_all_options (target : station) (l : list item) (d : page) :
  options (get_station target (append_all target l d)) =
  (options (get_station target d) ++
   flat_map (fun it => parseHTML (JS.ToString (option_html it))) l)%list.
Proof.
  unfold append_all. revert d.
  induction l as [|it l IH]; intros d; cbn [fold_left flat_map].
  - now rewrite app_nil_r.
  - rewrite IH. unfold append at 1.
    rewrite get_set_station_same. cbn [options]. now rewrite <- app_assoc.
Qed.

Lemma append_all_disabled (target : station) (l : list item) (d : page) :
  disabled (get_station target (append_all target l d)) =
  disabled (get_station target d).
Proof.
  unfold append_all. revert d.
  induction l as [|it l IH]; intros d; simpl; [reflexivity|].
  rewrite IH. unfold append.
  now rewrite get_set_station_same.
Qed.

Lemma append_all_other (s target : station) (l : list item) (d : page) :
  s <> target ->
  get_station s (append_all target l d) = get_station s d.
Proof.
  intros Hs. unfold append_all. revert d.
  induction l as [|it l IH]; intros d; simpl; [reflexivity|].
  rewrite IH. unfold append.
  now apply get_set_station_other.
Qed.

Lemma append_all_val (c : city) (target : station) (l : list item) (d : page) :
  val c (append_all target l d) = val c d.
Proof.
  unfold append_all. revert d.
  induction l as [|it l IH]; intros d; simpl; [reflexivity|].
  rewrite IH. unfold append.
  apply val_set_station.
Qed.

(** The markup of one entry is the rendering of the option the specification
    expects: every intermediate [+] has a string on its left. *)
Lemma option_html_outerHTML (it : item) :
  option_html it = JS.Str (outerHTML (option_of_item it)).
Proof.
  unfold option_html, outerHTML, option_of_item; simpl.
  f_equal. now rewrite !append_assoc.
Qed.

Lemma flat_map_markup (l : list item) :
  flat_map (fun it => parseHTML (JS.ToString (option_html it))) l =
  flat_map (fun it => parseHTML (outerHTML (option_of_item it))) l.
Proof.
  induction l as [|it l IH]; cbn [flat_map]; [reflexivity|].
  now rewrite IH, option_html_outerHTML.
Qed.

Lemma on_success_options (target : station) (data : response) (d : page) :
  options (get_station target (on_success target data d)) =
  expected_options data.
Proof.
  unfold on_success, expected_options.
  rewrite append_all_options. unfold empty. rewrite get_set_station_same.
  cbn [options app]. apply flat_map_markup.
Qed.

Lemma on_success_disabled (target : station) (data : response) (d : page) :
  disabled (get_station target (on_success target data d)) =
  disabled (get_station target d).
Proof.
  unfold on_success.
  rewrite append_all_disabled. unfold empty. now rewrite get_set_station_same.
Qed.

Lemma on_success_other (s target : station) (data : response) (d : page) :
  s <> target ->
  get_station s (on_success target data d) = get_station s d.
Proof.
  intros Hs. unfold on_success.
  rewrite append_all_other by assumption. unfold empty.
  now apply get_set_station_other.
Qed.

Lemma on_success_val (c : city) (target : station) (data : response) (d : page) :
  val c (on_success target data d) = val c d.
Proof.
  unfold on_success.
  rewrite append_all_val. unfold empty. apply val_set_station.
Qed.

(** ** Requests *)


Lemma nth_error_settle_other (n m : nat) (l : list (request * status)) :
  n <> m -> nth_error (settle n l) m = nth_error l m.
Proof.
  revert n m. induction l as [|[r st] l IH]; intros [|n] [|m] H; simpl;
    try reflexivity; try congruence.
  apply IH. congruence.
Qed.

Lemma nth_error_settle_same (n : nat) (l : list (request * status)) :
  nth_error (settle n l) n =
  match nth_error l n with Some (r, _) => Some (r, Settled) | None => None end.
Proof.
  revert n. induction l as [|[r st] l IH]; intros [|n]; simpl; auto.
Qed.

(** ** One event *)

Lemma change_eq (c : city) (v : JS.value) (w : browser) :
  change c v w =
  {| dom := prop_disabled (bound c) (JS.not v) (set_val c v (dom w));
     xhr := (xhr w ++ [(stations_request v (bound c), InFlight)])%list |}.
Proof. destruct c; reflexivity. Qed.

Lemma change_station (c : city) (v : JS.value) (w : browser) :
  get_station (bound c) (dom (change c v w)) =
  {| options := options (get_station (bound c) (dom w)); disabled := JS.not v |}.
Proof.
  rewrite change_eq; simpl. unfold prop_disabled.
  rewrite get_set_station_same. now rewrite get_station_set_val.
Qed.

Lemma change_station_other (s : station) (c : city) (v : JS.value) (w : browser) :
  s <> bound c ->
  get_station s (dom (change c v w)) = get_station s (dom w).
Proof.
  intros Hs. rewrite change_eq; simpl. unfold prop_disabled.
  rewrite get_set_station_other by assumption. apply get_station_set_val.
Qed.

Lemma change_val_same (c : city) (v : JS.value) (w : browser) :
  val c (dom (change c v w)) = v.
Proof.
  rewrite change_eq; simpl. unfold prop_disabled.
  rewrite val_set_station. apply val_set_val_same.
Qed.

Lemma change_val_other (c c' : city) (v : JS.value) (w : browser) :
  c <> c' -> val c (dom (change c' v w)) = val c (dom w).
Proof.
  intros Hc. rewrite change_eq; simpl. unfold prop_disabled.
  rewrite val_set_station. now apply val_set_val_other.
Qed.

Lemma change_pending_new (c : city) (v : JS.value) (w : browser) :
  pending (length (xhr w)) (change c v w) = Some (stations_request v (bound c)).
Proof.
  rewrite change_eq. unfold pending; simpl.
  rewrite nth_error_app2 by lia. now rewrite Nat.sub_diag.
Qed.


Lemma success_eq (n : nat) (data : response) (w : browser) (r : request) :
  pending n w = Some r ->
  step (Success n data) w =
  {| dom := on_success (stationSelect r) data (dom w); xhr := settle n (xhr w) |}.
Proof. intros H. simpl. now rewrite H. Qed.

Lemma pending_settle_other (n m : nat) (d d' : page) (x : list (request * status)) :
  n <> m ->
  pending m {| dom := d'; xhr := settle n x |} = pending m {| dom := d; xhr := x |}.
Proof.
  intros H. unfold pending; simpl. now rewrite nth_error_settle_other.
Qed.

(** An event changes a station selector only if it writes to it. *)
Lemma step_frame (s : station) (e : event) (w : browser) :
  writes_to e w <> Some s ->
  get_station s (dom (step e w)) = get_station s (dom w).
Proof.
  destruct e as [c v | n data | n]; simpl; intros H.
  - apply change_station_other. congruence.
  - destruct (pending n w) as [r|]; [|reflexivity]. simpl.
    apply on_success_other. congruence.
  - now destruct (pending n w).
Qed.

(** No completion changes the value of a city selector or a [disabled]
    property. *)
Lemma success_val (c : city) (n : nat) (data : response) (w : browser) :
  val c (dom (step (Success n data) w)) = val c (dom w).
Proof.
  simpl. destruct (pending n w) as [r|]; [|reflexivity]. apply on_success_val.
Qed.

Lemma success_disabled (s : station) (n : nat) (data : response) (w : browser) :
  disabled (get_station s (dom (step (Success n data) w))) =
  disabled (get_station s (dom w)).
Proof.
  simpl. destruct (pending n w) as [r|]; [|reflexivity]. simpl.
  destruct s, (stationSelect r) eqn:Hr;
    try apply on_success_disabled;
    rewrite on_success_other; congruence.
Qed.

Lemma failure_dom (n : nat) (w : browser) : dom (step (Failure n) w) = dom w.
Proof. simpl. now destruct (pending n w). Qed.

(** ** The [synced] invariant *)

Lemma change_synced (c : city) (v : JS.value) (w : browser) :
  synced c (change c v w).
Proof.
  unfold synced. rewrite change_station, change_val_same. reflexivity.
Qed.

Lemma step_synced (c : city) (e : event) (w : browser) :
  synced c w -> synced c (step e w).
Proof.
  unfold synced. destruct e as [c' v | n data | n]; intros H.
  - destruct c, c'; try apply change_synced;
      cbn [step]; rewrite change_station_other, change_val_other;
      try discriminate; exact H.
  - now rewrite success_disabled, success_val.
  - now rewrite failure_dom.
Qed.

Lemma run_synced (c : city) (tr : list event) (w : browser) :
  synced c w -> synced c (run tr w).
Proof.
  unfold run. revert w. induction tr as [|e tr IH]; intros w H; simpl.
  - exact H.
  - apply IH. now apply step_synced.
Qed.

(** ** Document ready *)

Lemma ready_xhr (w : browser) :
  xhr (ready w) = (xhr w ++ load_requests (dom w))%list.
Proof.
  destruct w as [[sp ep ds ar] x].
  unfold ready, load_requests, updateStations, get, with_dom, JS.strict_eq_string.
  cbn [dom xhr val start_point end_point pointSelect_1 pointSelect_2].
  destruct (JS.ToBoolean sp), (JS.ToBoolean ep);
    cbn [dom xhr val start_point end_point prop_disabled set_station];
    repeat match goal with
           | |- context [if ?b then _ else _] => destruct b
           end;
    cbn [dom xhr app]; rewrite <- ?app_assoc, ?app_nil_r; reflexivity.
Qed.

Lemma ready_station (c : city) (w : browser) :
  get_station (bound c) (dom (ready w)) =
  {| options := options (get_station (bound c) (dom w));
     disabled := if jQuery.trim (val c (dom w)) =? ""
                 then true
                 else disabled (get_station (bound c) (dom w)) |}.
Proof.
  destruct w as [[sp ep [o1 b1] [o2 b2]] x].
  unfold ready, updateStations, get, with_dom, JS.strict_eq_string,
    pointSelect_1, pointSelect_2, targetField_1, targetField_2, prop_disabled.
  destruct c; cbn [dom xhr val start_point end_point];
    destruct (JS.ToBoolean sp), (JS.ToBoolean ep);
    cbn [dom xhr val start_point end_point set_station get_station
         departure_station arrival_station options disabled bound];
    destruct (jQuery.trim sp =? "");
    cbn [dom xhr val start_point end_point set_station get_station
         departure_station arrival_station options disabled bound];
    destruct (jQuery.trim ep =? "");
    reflexivity.
Qed.



(** ** Completions and the observations *)

Lemma success_options (n : nat) (data : response) (w : browser) (r : request) :
  pending n w = Some r ->
  station_options (stationSelect r) (step (Success n data) w) =
  expected_options data.
Proof.
  intros H. rewrite (success_eq n data w r H). unfold station_options; simpl.
  apply on_success_options.
Qed.

Lemma success_enabled (s : station) (n : nat) (data : response) (w : browser) :
  enabled s (step (Success n data) w) = enabled s w.
Proof. unfold enabled. now rewrite success_disabled. Qed.

Lemma synced_enabled (c : city) (w : browser) :
  synced c w -> enabled (bound c) w = JS.ToBoolean (val c (dom w)).
Proof.
  unfold synced, enabled, JS.not. intros H. rewrite H. apply negb_involutive.
Qed.

Lemma ready_enabled (c : city) (w : browser) :
  enabled (bound c) (ready w) =
  if jQuery.trim (val c (dom w)) =? "" then false else enabled (bound c) w.
Proof.
  unfold enabled. rewrite ready_station. simpl.
  now destruct (jQuery.trim (val c (dom w)) =? "").
Qed.

Lemma ready_options (c : city) (w : browser) :
  station_options (bound c) (ready w) = station_options (bound c) w.
Proof. unfold station_options. now rewrite ready_station. Qed.

Lemma empty_value_falsy (v : JS.value) :
  empty_value v = true -> JS.ToBoolean v = false /\ jQuery.trim v = "".
Proof.
  destruct v as [| n | s]; simpl; intros H; try discriminate; [now split|].
  apply String.eqb_eq in H. now subst.
Qed.

(** * The claims *)

(** ** Enable/disable policy *)

(** C1, as stated, fails: a [change] of [start_point] to a single space
    leaves [departure_station] enabled although the value trims to the empty
    string; the [change] handler tests [!$(this).val()], not the trimmed
    value. *)
Lemma change_to_blank_enables :
  ~ (enabled Departure (step (Change StartPoint (JS.Str " ")) page_5) = true
     <-> jQuery.trim (val StartPoint
                        (dom (step (Change StartPoint (JS.Str " ")) page_5))) <> "").
Proof.
  intros [H _]. apply H; reflexivity.
Qed.

(** C1, amended.  After a [change] event on a city selector, and from then on
    whatever events follow, the bound station selector is enabled exactly when
    the city selector holds a truthy value; for a string, when it is not the
    empty string, white space included.  Page-load initialisation disables the
    station selector when the city value trims to the empty string and
    otherwise leaves its enabled state as the page had it; on a page served
    with the station selector enabled, it is then enabled exactly when the
    trimmed city value is not empty. *)
Theorem enabled_follows_city_value :
  (forall (c : city) (v : JS.value) (w : browser) (tr : list event),
      let w' := run tr (step (Change c v) w) in
      enabled (bound c) w' = JS.ToBoolean (val c (dom w')))
  /\ (forall (c : city) (s : string) (w : browser),
         enabled (bound c) (step (Change c (JS.Str s)) w) = true <-> s <> "")
  /\ (forall (c : city) (w : browser),
         enabled (bound c) (ready w) =
         if jQuery.trim (val c (dom w)) =? "" then false else enabled (bound c) w)
  /\ (forall (c : city) (w : browser),
         enabled (bound c) w = true ->
         (enabled (bound c) (ready w) = true <-> jQuery.trim (val c (dom w)) <> "")).
Proof.
  split; [|split; [|split]].
  - intros c v w tr w'. apply synced_enabled.
    apply run_synced. apply change_synced.
  - intros c s w. cbn [step].
    rewrite (synced_enabled c _ (change_synced c (JS.Str s) w)).
    rewrite change_val_same. simpl.
    rewrite negb_true_iff. split.
    + intros H Hs. subst. discriminate.
    + intros H. apply String.eqb_neq. exact H.
  - intros c w. apply ready_enabled.
  - intros c w Hw. rewrite ready_enabled, Hw.
    destruct (jQuery.trim (val c (dom w)) =? "") eqn:E.
    + apply String.eqb_eq in E. split; [discriminate | congruence].
    + apply String.eqb_neq in E. split; [intros _; exact E | reflexivity].
Qed.

Lemma enabled_follows_city_value_examples :
  enabled Departure (step (Change StartPoint (JS.Str "3")) page_5) = true
  /\ enabled Departure (step (Change StartPoint (JS.Str " ")) page_5) = true
  /\ enabled Departure (step (Change StartPoint (JS.Str "")) page_5) = false
  /\ enabled Departure (ready page_5) = true
  /\ enabled Arrival (ready page_5) = false
  /\ enabled Departure (ready page_blank) = false.
Proof.
  destruct enabled_follows_city_value as (A & _ & C & D).
  split; [exact (A StartPoint (JS.Str "3") page_5 [])|].
  split; [exact (A StartPoint (JS.Str " ") page_5 [])|].
  split; [exact (A StartPoint (JS.Str "") page_5 [])|].
  split; [apply (proj2 (D StartPoint page_5 eq_refl)); discriminate|].
  split; [exact (C EndPoint page_5) | exact (C StartPoint page_blank)].
Defined.

(** ** A [change] to the empty value *)

(** C2, as stated, fails: changing [start_point] from "5" to the empty string
    disables [departure_station] but one more GET is issued. *)
Lemma change_to_empty_fetches :
  ~ (enabled Departure (step (Change StartPoint (JS.Str "")) (ready page_5)) = false
     /\ issued (step (Change StartPoint (JS.Str "")) (ready page_5)) =
        issued (ready page_5)).
Proof.
  intros [_ H]. discriminate H.
Qed.

(** C2, amended.  When a [change] event delivers the empty string, the bound
    station selector is disabled, its options stay, and one GET is issued,
    for [/ajax/get_stations/?city_id=] with an empty city id: the handler
    calls [updateStations] without looking at the value. *)
Theorem change_to_empty (c : city) (w : browser) :
  let w' := step (Change c (JS.Str "")) w in
  enabled (bound c) w' = false
  /\ station_options (bound c) w' = station_options (bound c) w
  /\ issued w' =
     (issued w ++ [{| url := "/ajax/get_stations/?city_id=";
                      stationSelect := bound c |}])%list
  /\ pending (length (xhr w)) w' =
     Some {| url := "/ajax/get_stations/?city_id="; stationSelect := bound c |}.
Proof.
  cbn [step]. repeat split.
  - unfold enabled. now rewrite change_station.
  - unfold station_options. now rewrite change_station.
  - rewrite change_eq. unfold issued; simpl. now rewrite map_app.
  - now rewrite change_pending_new.
Qed.

(** ** Repopulation *)

(** C3, as stated, fails: the response of one entry whose text closes its
    option and opens another leaves [departure_station] with two options, not
    with the one option whose value is the id and whose label is the text;
    the text goes into the markup unescaped and the markup is parsed. *)
Lemma one_entry_two_options :
  ~ (station_options Departure (step (Success 0 stations_injected) (ready page_5)) =
     map (fun it => Element {| value := JS.ToString (id it);
                               label := JS.ToString (text it) |})
         (results stations_injected)).
Proof.
  intros H. vm_compute in H. discriminate H.
Qed.

Lemma one_entry_two_options_result :
  station_options Departure (step (Success 0 stations_injected) (ready page_5)) =
  [ Element {| value := "1"; label := "A" |};
    Element {| value := "2"; label := "B" |} ].
Proof. reflexivity. Qed.

(** C3, amended.  When a request in flight completes with a response, the
    station selector it was issued for holds, for each entry of the response
    in the order of the response, the nodes that the entry's markup yields
    when parsed, and nothing of what it held before.  When no id and no text
    of the response holds a character that markup gives a meaning to, that is
    exactly one option per entry, whose value is the entry's id and whose
    label is the entry's text.  An empty result list leaves the selector
    with no option. *)
Theorem repopulate_from_response
    (n : nat) (data : response) (w : browser) (r : request) :
  pending n w = Some r ->
  let w' := step (Success n data) w in
  station_options (stationSelect r) w' =
    flat_map (fun it => parseHTML (outerHTML {| value := JS.ToString (id it);
                                                label := JS.ToString (text it) |}))
             (results data)
  /\ (forallb plain_item (results data) = true ->
      station_options (stationSelect r) w' =
        map (fun it => Element {| value := JS.ToString (id it);
                                  label := JS.ToString (text it) |})
            (results data)
      /\ length (station_options (stationSelect r) w') = length (results data))
  /\ (results data = [] -> station_options (stationSelect r) w' = []).
Proof.
  intros H w'. assert (E := success_options n data w r H).
  fold w' in E. split; [exact E|]. split.
  - intros P. rewrite E, (expected_options_plain data P).
    split; [reflexivity | apply length_map].
  - intros Hr. rewrite E. unfold expected_options. rewrite Hr. reflexivity.
Qed.

Lemma repopulate_from_response_AB :
  pending 0 (ready page_5) = Some (stations_request (JS.Str "5") Departure)
  /\ station_options Departure (step (Success 0 stations_AB) (ready page_5)) =
     [ Element {| value := "1"; label := "A" |};
       Element {| value := "2"; label := "B" |} ]
  /\ station_options Departure
       (step (Success 0 {| results := [] |}) (ready page_5)) = [].
Proof.
  split; [reflexivity|]. split.
  - exact (proj1 (proj1 (proj2 (repopulate_from_response 0 stations_AB
                                  (ready page_5)
                                  (stations_request (JS.Str "5") Departure)
                                  eq_refl))
                        eq_refl)).
  - exact (proj2 (proj2 (repopulate_from_response 0 {| results := [] |}
                           (ready page_5)
                           (stations_request (JS.Str "5") Departure) eq_refl))
                 eq_refl).
Defined.

(** ** Page load *)




(** ** Failed and unanswered requests *)

(** C5.  The failure of a request changes nothing on the page.  A [change]
    event leaves the options of the bound station selector as they were and
    sets its enabled state from the city value alone; so when the request it
    issued fails, or is never answered, the selector still holds the options
    it held before the request, and its enabled state is the one the [change]
    handler gave it, the same as when the request succeeds. *)
Theorem failed_fetch_leaves_station :
  (forall (n : nat) (w : browser), dom (step (Failure n) w) = dom w)
  /\ (forall (c : city) (v : JS.value) (w : browser),
         station_options (bound c) (step (Change c v) w) =
           station_options (bound c) w
         /\ enabled (bound c) (step (Change c v) w) = JS.ToBoolean v)
  /\ (forall (c : city) (v : JS.value) (w : browser) (n : nat),
         station_options (bound c) (step (Failure n) (step (Change c v) w)) =
           station_options (bound c) w
         /\ enabled (bound c) (step (Failure n) (step (Change c v) w)) =
            JS.ToBoolean v)
  /\ (forall (c : city) (v : JS.value) (w : browser) (n : nat) (data : response),
         enabled (bound c) (step (Success n data) (step (Change c v) w)) =
         JS.ToBoolean v).
Proof.
  assert (O : forall c v w,
             station_options (bound c) (step (Change c v) w) =
             station_options (bound c) w).
  { intros c v w. unfold station_options. cbn [step]. now rewrite change_station. }
  assert (E : forall c v w,
             enabled (bound c) (step (Change c v) w) = JS.ToBoolean v).
  { intros c v w. cbn [step]. rewrite synced_enabled by apply change_synced.
    now rewrite change_val_same. }
  split; [exact failure_dom|]. split; [intros c v w; split; auto|]. split.
  - intros c v w n. unfold station_options, enabled in *.
    rewrite failure_dom. split; [apply O | apply E].
  - intros c v w n data. rewrite success_enabled. apply E.
Qed.

(** ** Two requests in flight *)


(** The scenario of the specification: "5" then "7", the answer for "5"
    arriving last.  The list shown is the one for "5" although "7" is
    selected. *)
Lemma stale_response_example :
  val StartPoint (dom (run rapid_changes (served (JS.Str "") (JS.Str "")))) =
    JS.Str "7"
  /\ issued (run rapid_changes (served (JS.Str "") (JS.Str ""))) =
     [stations_request (JS.Str "5") Departure;
      stations_request (JS.Str "7") Departure]
  /\ station_options Departure (run rapid_changes (served (JS.Str "") (JS.Str ""))) =
     expected_options stations_AB
  /\ station_options Departure (run rapid_changes (served (JS.Str "") (JS.Str ""))) <>
     expected_options stations_C.
Proof.
  repeat split. discriminate.
Qed.

(** ** Independence of the two pairs *)

(** C7.  A [change] event on one city selector, followed or not by the
    completion (success or failure) of the request it issued, leaves the
    station selector of the other pair as it was, options and disabled state
    alike: [start_point] never touches [arrival_station], nor [end_point]
    [departure_station]. *)
Theorem pairs_independent
    (c : city) (v : JS.value) (data : response) (w : browser) :
  let s := bound (other c) in
  let n := length (xhr w) in
  get_station s (dom (step (Change c v) w)) = get_station s (dom w)
  /\ get_station s (dom (run [Change c v; Success n data] w)) = get_station s (dom w)
  /\ get_station s (dom (run [Change c v; Failure n] w)) = get_station s (dom w).
Proof.
  intros s n.
  assert (C : get_station s (dom (step (Change c v) w)) = get_station s (dom w)).
  { apply step_frame. simpl. intros H. inversion H as [E].
    symmetry in E. exact (bound_other c E). }
  repeat split.
  - exact C.
  - unfold run; cbn [fold_left]. rewrite <- C. apply step_frame.
    cbn [writes_to step]. unfold n. rewrite change_pending_new. simpl.
    intros H. inversion H as [E]. symmetry in E. exact (bound_other c E).
  - unfold run; cbn [fold_left]. rewrite <- C. apply step_frame.
    discriminate.
Qed.

(** The same over any sequence of events: a station selector changes only
    through the events that write to it. *)
Lemma run_frame (s : station) (tr : list event) (w : browser) :
  quiet s tr w = true ->
  get_station s (dom (run tr w)) = get_station s (dom w).
Proof.
  unfold run. revert w. induction tr as [|e tr IH]; intros w H; simpl in *.
  - reflexivity.
  - apply andb_true_iff in H. destruct H as [He Htr].
    rewrite (IH _ Htr). apply step_frame.
    destruct (writes_to e w) as [t|]; [|discriminate].
    intros E. inversion E; subst. destruct s; discriminate.
Qed.

(** ** Options of a disabled selector *)

(** C8.  When page-load initialisation disables a station selector because
    its city value trims to the empty string, the options the selector held
    are still there afterwards. *)
Theorem load_disable_keeps_options (c : city) (w : browser) :
  jQuery.trim (val c (dom w)) = "" ->
  enabled (bound c) (ready w) = false
  /\ station_options (bound c) (ready w) = station_options (bound c) w.
Proof.
  intros H. split.
  - rewrite ready_enabled, H. reflexivity.
  - apply ready_options.
Qed.

Lemma load_disable_keeps_old_option :
  enabled Arrival (ready page_5) = false
  /\ station_options Arrival (ready page_5) = [old_option].
Proof.
  exact (load_disable_keeps_options EndPoint page_5 eq_refl).
Defined.

(** ** The markup of an option *)

(** C9.  For every response entry the markup handed to [append] is the
    concatenation of the opening tag up to the quote of its value attribute,
    the id, the closing quote and bracket, the text and the closing tag, as
    the source writes it: id and text are converted to strings by [+] and nothing else
    is done to them, so that a string id or text stands in the markup as it
    is; this markup is what [append] parses into the new last children of
    the station selector. *)
Theorem option_markup_is_concatenation :
  (forall it : item,
      option_html it =
      JS.Str ("<option value=" ++ quote ++ JS.ToString (id it) ++ quote ++ ">"
              ++ JS.ToString (text it) ++ "</option>"))
  /\ (forall i t : string,
         option_html {| id := JS.Str i; text := JS.Str t |} =
         JS.Str ("<option value=" ++ quote ++ i ++ quote ++ ">" ++ t ++ "</option>"))
  /\ (forall (target : station) (it : item) (d : page),
         options (get_station target (append target (option_html it) d)) =
         (options (get_station target d) ++
          parseHTML ("<option value=" ++ quote ++ JS.ToString (id it) ++ quote
                     ++ ">" ++ JS.ToString (text it) ++ "</option>"))%list).
Proof.
  assert (A : forall it : item,
             option_html it =
             JS.Str ("<option value=" ++ quote ++ JS.ToString (id it) ++ quote
                     ++ ">" ++ JS.ToString (text it) ++ "</option>")).
  { intros it. rewrite option_html_outerHTML. reflexivity. }
  split; [exact A|]. split.
  - intros i t. apply (A {| id := JS.Str i; text := JS.Str t |}).
  - intros target it d. unfold append. rewrite get_set_station_same.
    cbn [options]. now rewrite A.
Qed.

(** Markup in a text goes into the option unescaped. *)
Lemma option_markup_unescaped :
  option_html {| id := JS.Num 3; text := JS.Str "<b>Kyiv</b> & Co" |} =
  JS.Str ("<option value=" ++ quote ++ "3" ++ quote ++ "><b>Kyiv</b> & Co</option>").
Proof. reflexivity. Qed.

(** ** A city value of white space at page load *)



(** * Further properties of the script *)

(** ** The success callback in closed form *)

Lemma set_station_twice (t : station) (x y : select) (d : page) :
  set_station t x (set_station t y d) = set_station t x d.
Proof. now destruct t. Qed.

Lemma set_station_comm (t u : station) (x y : select) (d : page) :
  t <> u ->
  set_station t x (set_station u y d) = set_station u y (set_station t x d).
Proof. destruct t, u; simpl; congruence. Qed.

Lemma set_station_get (t : station) (d : page) :
  set_station t
    {| options := options (get_station t d);
       disabled := disabled (get_station t d) |} d = d.
Proof. destruct t, d as [sp ep [o1 b1] [o2 b2]]; reflexivity. Qed.

Lemma append_all_eq (target : station) (l : list item) (d : page) :
  append_all target l d =
  set_station target
    {| options := (options (get_station target d) ++
                   flat_map (fun it => parseHTML (JS.ToString (option_html it))) l)%list;
       disabled := disabled (get_station target d) |} d.
Proof.
  unfold append_all. revert d.
  induction l as [|it l IH]; intros d; cbn [fold_left flat_map].
  - rewrite app_nil_r. symmetry. apply set_station_get.
  - rewrite IH. unfold append.
    rewrite get_set_station_same, set_station_twice. cbn [options disabled].
    now rewrite <- app_assoc.
Qed.

Lemma on_success_eq (target : station) (data : response) (d : page) :
  on_success target data d =
  set_station target
    {| options := expected_options data;
       disabled := disabled (get_station target d) |} d.
Proof.
  unfold on_success. rewrite append_all_eq. unfold empty, expected_options.
  rewrite get_set_station_same, set_station_twice. cbn [options disabled app].
  do 2 f_equal. apply flat_map_markup.
Qed.

Lemma on_success_twice (target : station) (a b : response) (d : page) :
  on_success target b (on_success target a d) = on_success target b d.
Proof.
  rewrite !on_success_eq. rewrite get_set_station_same. cbn [disabled].
  apply set_station_twice.
Qed.

Lemma on_success_comm (t u : station) (a b : response) (d : page) :
  t <> u ->
  on_success t a (on_success u b d) = on_success u b (on_success t a d).
Proof.
  intros H. rewrite !on_success_eq.
  rewrite !get_set_station_other by congruence.
  now apply set_station_comm.
Qed.

Lemma settle_comm (n m : nat) (l : list (request * status)) :
  settle n (settle m l) = settle m (settle n l).
Proof.
  revert n m. induction l as [|[r st] l IH]; intros [|n] [|m]; simpl;
    try reflexivity.
  now rewrite IH.
Qed.

Lemma pending_after_success
    (n m : nat) (data : response) (w : browser) (r : request) :
  n <> m -> pending m w = Some r ->
  pending m (step (Success n data) w) = Some r.
Proof.
  intros Hnm Hm. cbn [step]. destruct (pending n w) as [r'|]; [|exact Hm].
  rewrite (pending_settle_other n m (dom w)) by assumption.
  destruct w; exact Hm.
Qed.

(** X1.  When two requests for the same station selector are in flight and
    both succeed, the page ends exactly as if only the later answer had
    arrived: the callback replaces the options and merges nothing. *)
Theorem later_response_erases_earlier
    (n m : nat) (a b : response) (w : browser) (r1 r2 : request) :
  pending n w = Some r1 ->
  pending m w = Some r2 ->
  n <> m ->
  stationSelect r1 = stationSelect r2 ->
  dom (run [Success n a; Success m b] w) = dom (step (Success m b) w).
Proof.
  intros H1 H2 Hnm Ht. unfold run; cbn [fold_left].
  rewrite (success_eq m b _ r2 (pending_after_success n m a w r2 Hnm H2)).
  rewrite (success_eq n a w r1 H1), (success_eq m b w r2 H2). cbn [dom].
  rewrite Ht. apply on_success_twice.
Qed.

Lemma later_response_erases_earlier_example :
  dom (run [Success 0 stations_AB; Success 1 stations_C]
           (run [Change StartPoint (JS.Str "5"); Change StartPoint (JS.Str "7")]
                page_5)) =
  dom (step (Success 1 stations_C)
            (run [Change StartPoint (JS.Str "5"); Change StartPoint (JS.Str "7")]
                 page_5)).
Proof.
  apply (later_response_erases_earlier 0 1 stations_AB stations_C _
           (stations_request (JS.Str "5") Departure)
           (stations_request (JS.Str "7") Departure));
    [reflexivity | reflexivity | discriminate | reflexivity].
Defined.

(** X2.  Answers for the two different station selectors commute: whichever
    of the two requests completes first, the browser ends in the same state. *)
Theorem completions_of_both_pairs_commute
    (n m : nat) (a b : response) (w : browser) (r1 r2 : request) :
  pending n w = Some r1 ->
  pending m w = Some r2 ->
  stationSelect r1 <> stationSelect r2 ->
  run [Success n a; Success m b] w = run [Success m b; Success n a] w.
Proof.
  intros H1 H2 Ht.
  assert (Hnm : n <> m).
  { intros E. subst m. rewrite H1 in H2. inversion H2. congruence. }
  unfold run; cbn [fold_left].
  rewrite (success_eq m b _ r2 (pending_after_success n m a w r2 Hnm H2)).
  rewrite (success_eq n a _ r1
             (pending_after_success m n b w r1 (not_eq_sym Hnm) H1)).
  rewrite (success_eq n a w r1 H1), (success_eq m b w r2 H2). cbn [dom xhr].
  f_equal.
  - now apply on_success_comm, not_eq_sym.
  - apply settle_comm.
Qed.

Lemma completions_of_both_pairs_commute_example :
  run [Success 0 stations_AB; Success 1 stations_C]
      (run [Change StartPoint (JS.Str "5"); Change EndPoint (JS.Str "7")] page_5) =
  run [Success 1 stations_C; Success 0 stations_AB]
      (run [Change StartPoint (JS.Str "5"); Change EndPoint (JS.Str "7")] page_5).
Proof.
  apply (completions_of_both_pairs_commute 0 1 stations_AB stations_C _
           (stations_request (JS.Str "5") Departure)
           (stations_request (JS.Str "7") Arrival));
    [reflexivity | reflexivity | discriminate].
Defined.

(** ** The requests a run issues *)

Lemma map_fst_settle (n : nat) (l : list (request * status)) :
  map fst (settle n l) = map fst l.
Proof.
  revert n. induction l as [|[r st] l IH]; intros [|n]; simpl; auto.
  now rewrite IH.
Qed.

Lemma issued_step (e : event) (w : browser) :
  issued (step e w) = (issued w ++ requests_of [e])%list.
Proof.
  unfold issued. destruct e as [c v | n data | n]; cbn [step requests_of].
  - rewrite change_eq. cbn [xhr]. now rewrite map_app.
  - rewrite app_nil_r. destruct (pending n w); [|reflexivity].
    cbn [xhr]. apply map_fst_settle.
  - rewrite app_nil_r. destruct (pending n w); [|reflexivity].
    cbn [xhr]. apply map_fst_settle.
Qed.



Lemma ready_keeps_val (c : city) (w : browser) :
  val c (dom (ready w)) = val c (dom w).
Proof.
  destruct w as [[sp ep ds ar] x].
  unfold ready, updateStations, get, with_dom, JS.strict_eq_string.
  cbn [dom xhr val start_point end_point pointSelect_1 pointSelect_2].
  destruct (JS.ToBoolean sp), (JS.ToBoolean ep);
    cbn [dom xhr val start_point end_point prop_disabled set_station];
    repeat match goal with
           | |- context [if ?b then _ else _] => destruct b
           end;
    destruct c; reflexivity.
Qed.

(** X4.  The document-ready body issues one GET for each city selector that
    holds a truthy value, the one for [start_point] first, and no other; it
    changes neither the value of a city selector nor the options of a station
    selector. *)
Theorem ready_requests (w : browser) :
  issued (ready w) =
    (issued w ++
     map (fun c => stations_request (val c (dom w)) (bound c))
         (filter (fun c => JS.ToBoolean (val c (dom w))) [StartPoint; EndPoint]))%list
  /\ (forall c : city, val c (dom (ready w)) = val c (dom w))
  /\ (forall s : station, station_options s (ready w) = station_options s w).
Proof.
  split; [|split].
  - unfold issued. rewrite ready_xhr, map_app. f_equal.
    unfold load_requests. cbn [filter val].
    destruct (JS.ToBoolean (start_point (dom w))),
             (JS.ToBoolean (end_point (dom w))); reflexivity.
  - intros c. apply ready_keeps_val.
  - intros [|]; [exact (ready_options StartPoint w) | exact (ready_options EndPoint w)].
Qed.

(** ** The load-time check, by characters *)

Lemma trim_eqb_all_space (s : string) :
  (jQuery.trim (JS.Str s) =? "") = jQuery.all_space s.
Proof.
  destruct (jQuery.all_space s) eqn:E.
  - apply String.eqb_eq. now apply trim_empty_iff.
  - apply String.eqb_neq. intros H. apply trim_empty_iff in H. congruence.
Qed.

(** X5.  The document-ready body disables a station selector exactly when its
    city selector holds [null] or a string made of white space only (the
    empty string, spaces, tabs, line breaks, no-break spaces); on any other
    string it leaves the enabled state as it was. *)
Theorem load_disables_on_white_space (c : city) (w : browser) :
  (val c (dom w) = JS.Null -> enabled (bound c) (ready w) = false)
  /\ (forall s : string,
         val c (dom w) = JS.Str s ->
         enabled (bound c) (ready w) =
         enabled (bound c) w && negb (jQuery.all_space s)).
Proof.
  split.
  - intros H. rewrite ready_enabled, H. reflexivity.
  - intros s H. rewrite ready_enabled, H, trim_eqb_all_space.
    destruct (jQuery.all_space s); [now rewrite andb_false_r | now rewrite andb_true_r].
Qed.

Lemma load_disables_on_white_space_examples :
  enabled Departure
    (ready (served (JS.Str (String "009"%char (String "160"%char " ")))
                   JS.Null)) = false
  /\ enabled Arrival
       (ready (served (JS.Str (String "009"%char (String "160"%char " ")))
                      JS.Null)) = false
  /\ enabled Departure (ready (served (JS.Str " 5 ") JS.Null)) = true.
Proof.
  split; [|split].
  - exact (proj2 (load_disables_on_white_space StartPoint
                    (served (JS.Str (String "009"%char (String "160"%char " ")))
                            JS.Null)) _ eq_refl).
  - exact (proj1 (load_disables_on_white_space EndPoint
                    (served (JS.Str (String "009"%char (String "160"%char " ")))
                            JS.Null)) eq_refl).
  - exact (proj2 (load_disables_on_white_space StartPoint
                    (served (JS.Str " 5 ") JS.Null)) _ eq_refl).
Defined.

(** ** Where the options of a station selector come from *)

Lemma step_options (s : station) (e : event) (w : browser) :
  station_options s (step e w) = station_options s w
  \/ exists n data, e = Success n data
                    /\ station_options s (step e w) = expected_options data.
Proof.
  destruct e as [c v | n data | n].
  - left. unfold station_options. cbn [step]. rewrite change_eq. cbn [dom].
    unfold prop_disabled.
    destruct s, c; reflexivity.
  - destruct (pending n w) as [r|] eqn:P.
    + destruct s, (stationSelect r) eqn:T.
      * right. exists n, data. split; [reflexivity|].
        rewrite <- T. now apply success_options.
      * left. unfold station_options. rewrite (success_eq n data w r P).
        cbn [dom]. rewrite on_success_other; [reflexivity | congruence].
      * left. unfold station_options. rewrite (success_eq n data w r P).
        cbn [dom]. rewrite on_success_other; [reflexivity | congruence].
      * right. exists n, data. split; [reflexivity|].
        rewrite <- T. now apply success_options.
    + left. cbn [step]. now rewrite P.
  - left. unfold station_options. now rewrite failure_dom.
Qed.

(** X6.  After any sequence of events a station selector holds either the
    options it held before, or exactly the options of one response that a
    success event of the sequence delivered: options are never built from
    anything else, nor mixed from two responses. *)
Theorem options_come_from_a_response
    (s : station) (tr : list event) (w : browser) :
  station_options s (run tr w) = station_options s w
  \/ exists n data, In (Success n data) tr
                    /\ station_options s (run tr w) = expected_options data.
Proof.
  unfold run. revert w. induction tr as [|e tr IH]; intros w; cbn [fold_left].
  - now left.
  - destruct (IH (step e w)) as [H | (n & data & Hin & H)].
    + destruct (step_options s e w) as [H' | (n & data & He & H')].
      * left. congruence.
      * right. exists n, data. split; [left; now symmetry | congruence].
    + right. exists n, data. split; [now right | exact H].
Qed.

(** ** What only a [change] of its own city selector can do *)

Lemma step_keeps_pair (c : city) (e : event) (w : browser) :
  no_change c [e] = true ->
  disabled (get_station (bound c) (dom (step e w))) =
    disabled (get_station (bound c) (dom w))
  /\ val c (dom (step e w)) = val c (dom w).
Proof.
  destruct e as [c' v | n data | n]; cbn [no_change]; intros H.
  - rewrite andb_true_r in H. apply negb_true_iff in H. cbn [step].
    destruct c, c'; try discriminate H;
      rewrite change_station_other, change_val_other;
      try discriminate; now split.
  - now rewrite success_disabled, success_val.
  - now rewrite failure_dom.
Qed.

Lemma no_change_cons (c : city) (e : event) (tr : list event) :
  no_change c (e :: tr) = no_change c [e] && no_change c tr.
Proof.
  destruct e as [c' v | n data | n]; cbn [no_change];
    [now rewrite andb_true_r | reflexivity | reflexivity].
Qed.

(** X7.  Over a sequence of events that holds no [change] of a city selector,
    that selector keeps its value and its station selector keeps its
    [disabled] property: completions, failures and the other pair's events
    never enable or disable it. *)
Theorem only_own_change_toggles (c : city) (tr : list event) (w : browser) :
  no_change c tr = true ->
  disabled (get_station (bound c) (dom (run tr w))) =
    disabled (get_station (bound c) (dom w))
  /\ val c (dom (run tr w)) = val c (dom w).
Proof.
  unfold run. revert w. induction tr as [|e tr IH]; intros w H; cbn [fold_left].
  - now split.
  - rewrite no_change_cons in H. apply andb_true_iff in H. destruct H as [He Htr].
    destruct (IH (step e w) Htr) as [D V].
    destruct (step_keeps_pair c e w He) as [D' V'].
    split; congruence.
Qed.

Lemma only_own_change_toggles_example :
  disabled (get_station Arrival
              (dom (run [Change StartPoint (JS.Str "7"); Success 0 stations_AB;
                         Failure 1]
                        (ready page_5)))) = true
  /\ val EndPoint
       (dom (run [Change StartPoint (JS.Str "7"); Success 0 stations_AB;
                  Failure 1]
                 (ready page_5))) = JS.Str "".
Proof.
  exact (only_own_change_toggles EndPoint
           [Change StartPoint (JS.Str "7"); Success 0 stations_AB; Failure 1]
           (ready page_5) eq_refl).
Defined.

(** ** The markup does not determine the entry *)

(** X8.  The markup of an option does not tell its entry: a quote and a
    closing bracket at the end of an id give the same markup as at the start
    of the text, whatever surrounds them, and a numeric id gives the same
    markup as the string of its digits. *)
Theorem option_markup_is_ambiguous :
  (forall i x t : string,
      option_html {| id := JS.Str (i ++ quote ++ ">" ++ x); text := JS.Str t |} =
      option_html {| id := JS.Str i; text := JS.Str (x ++ quote ++ ">" ++ t) |})
  /\ (forall (n : Z) (t : JS.value),
         option_html {| id := JS.Num n; text := t |} =
         option_html {| id := JS.Str (JS.ToString (JS.Num n)); text := t |}).
Proof.
  split.
  - intros i x t. rewrite !option_html_outerHTML. f_equal.
    unfold outerHTML, option_of_item. cbn [value label id text JS.ToString].
    now rewrite !append_assoc.
  - intros n t. now rewrite !option_html_outerHTML.
Qed.

(** ** The earlier variant *)

Lemma V1_step_eq (e : event) (w : browser) : V1.step e w = step e w.
Proof.
  destruct e as [c v | n data | n]; cbn [V1.step step].
  - destruct c; reflexivity.
  - destruct (pending n w) as [r|]; [|reflexivity].
    destruct (stationSelect r); reflexivity.
  - reflexivity.
Qed.

(** X9.  The two variants of the script handle events alike: on every
    sequence of [change] events, successes and failures, from every state,
    the handlers of lines 2-45 with the request written in place leave the
    browser in the same state as those of lines 47-106 that call
    [updateStations]. *)
Theorem variants_handle_events_alike (tr : list event) (w : browser) :
  V1.run tr w = run tr w.
Proof.
  unfold V1.run, run. revert w.
  induction tr as [|e tr IH]; intros w; cbn [fold_left]; [reflexivity|].
  now rewrite V1_step_eq, IH.
Qed.

(** X10.  The document-ready body of the earlier variant disables both
    station selectors whatever the city selectors hold, keeps their options
    and issues no request.  The later variant does the same when both city
    selectors are empty; when a city selector holds a truthy value it issues
    requests where the earlier variant issues none. *)
Theorem earlier_variant_load (w : browser) :
  (forall s : station,
      get_station s (dom (V1.ready w)) =
      {| options := options (get_station s (dom w)); disabled := true |})
  /\ xhr (V1.ready w) = xhr w
  /\ (empty_value (val StartPoint (dom w)) = true ->
      empty_value (val EndPoint (dom w)) = true ->
      ready w = V1.ready w)
  /\ (forall c : city,
         JS.ToBoolean (val c (dom w)) = true ->
         length (xhr (V1.ready w)) < length (xhr (ready w))).
Proof.
  split; [|split; [|split]].
  - intros s. destruct w as [[sp ep [o1 b1] [o2 b2]] x]. destruct s; reflexivity.
  - reflexivity.
  - intros H1 H2.
    apply empty_value_falsy in H1. apply empty_value_falsy in H2.
    destruct H1 as [B1 T1], H2 as [B2 T2].
    destruct w as [[sp ep ds ar] x]. cbn [dom val start_point end_point] in *.
    unfold ready, V1.ready, JS.strict_eq_string, pointSelect_1, pointSelect_2.
    cbn [dom val start_point end_point].
    rewrite B1, B2. cbn [dom start_point]. rewrite T1, String.eqb_refl.
    unfold with_dom, prop_disabled, targetField_1, targetField_2.
    cbn [dom xhr set_station end_point]. rewrite T2. reflexivity.
  - intros c H. cbn [V1.ready with_dom xhr]. rewrite ready_xhr, length_app.
    unfold load_requests. rewrite length_app.
    destruct c; cbn [val] in H; rewrite H; cbn [length]; lia.
Qed.

Lemma earlier_variant_load_examples :
  ready (served (JS.Str "") JS.Null) = V1.ready (served (JS.Str "") JS.Null)
  /\ length (xhr (V1.ready page_5)) < length (xhr (ready page_5)).
Proof.
  split.
  - exact (proj1 (proj2 (proj2 (earlier_variant_load
                                  (served (JS.Str "") JS.Null))))
                 eq_refl eq_refl).
  - exact (proj2 (proj2 (proj2 (earlier_variant_load page_5)))
                 StartPoint eq_refl).
Defined.

(** ** A [change] with nothing selected *)

(** X11.  When a [change] event finds no option selected ([.val()] is
    [null]), the station selector is disabled and its options stay, and a GET
    is issued all the same, with the word null as its city id. *)
Theorem change_to_null (c : city) (w : browser) :
  enabled (bound c) (step (Change c JS.Null) w) = false
  /\ station_options (bound c) (step (Change c JS.Null) w) =
     station_options (bound c) w
  /\ issued (step (Change c JS.Null) w) =
     (issued w ++ [{| url := "/ajax/get_stations/?city_id=null";
                      stationSelect := bound c |}])%list.
Proof.
  split; [|split].
  - unfold enabled. cbn [step]. now rewrite change_station.
  - unfold station_options. cbn [step]. now rewrite change_station.
  - now rewrite issued_step.
Qed.
